(** * A table-model adapter over a pandas frame

    Shallow embedding of [src/main.py]: the [PandasModel] adapter that
    exposes a [pandas.DataFrame] to a Qt grid view, the two methods
    of [DataApp] that build and replace it ([get_statistics],
    [update_stat]), and the logging around them ([LogMixin],
    [log_action]).

    Python is embedded with explicit exceptions ([result]) and explicit
    state passing ([Py]): a method is a function from the receiver's
    state to an outcome and the receiver's state afterwards. *)

From Stdlib Require Import ZArith Lia.
From Stdlib Require Import Floats.SpecFloat.
From stdpp Require Import base option list gmap strings pretty.

Open Scope Z_scope.

(** ** Python outcomes *)

(** How control leaves the embedded code other than by returning: the
    exception classes it can raise, and [Abort], the end of the process,
    which is what PyQt makes of an error inside a Python method that C++
    calls back. *)
Inductive PyExc : Type :=
  | IndexError
  | AttributeError
  | ValueError
  | OverflowError
  | Abort.

(** Outcome of evaluating a Python expression. *)
Inductive result (A : Type) : Type :=
  | Ok (a : A)
  | Raise (e : PyExc).
Arguments Ok {A} a.
Arguments Raise {A} e.

#[global] Instance result_ret : MRet result := λ A a, Ok a.
#[global] Instance result_bind : MBind result := λ A B f m,
  match m with
  | Ok a => f a
  | Raise e => Raise e
  end.

(** A method body run on a receiver of type [St]: it yields a value or
    raises, and leaves the receiver in some state either way. *)
Definition Py (St A : Type) : Type := St → result A * St.

Definition py_ret {St A} (a : A) : Py St A := λ s, (Ok a, s).

Definition py_bind {St A B} (m : Py St A) (k : A → Py St B) : Py St B := λ s,
  match m s with
  | (Ok a, s') => k a s'
  | (Raise e, s') => (Raise e, s')
  end.

(** [self] : read the receiver. *)
Definition py_self {St} : Py St St := λ s, (Ok s, s).

(** [self.attr = v] style update of the receiver. *)
Definition py_assign {St} (f : St → St) : Py St unit := λ s, (Ok tt, f s).

(** Evaluate an expression that does not touch the receiver. *)
Definition py_eval {St A} (r : result A) : Py St A := λ s, (r, s).

Declare Scope py_scope.
Delimit Scope py_scope with py.
Notation "x <~ m ;; k" := (py_bind m (λ x, k))
  (at level 100, m at next level, right associativity) : py_scope.
Notation "m ;;; k" := (py_bind m (λ _, k))
  (at level 100, right associativity) : py_scope.

(** ** Scalars and their [str] *)

(** What a cell or a label of a frame holds: a numpy integer, a numpy
    float (as an IEEE 754 datum), a Python string or a boolean. *)
Inductive scalar : Type :=
  | SInt (z : Z)
  | SFloat (f : spec_float)
  | SStr (s : string)
  | SBool (b : bool).

(** [str] of a float is the shortest digit string that reads back as the
    same float, as numpy and the interpreter print it; that algorithm lives
    outside the repository and is taken as a parameter of the
    development. *)
Class FloatRepr : Type := float_repr : spec_float → string.

(** Python's [str(value)]. *)
Definition str `{FloatRepr} (v : scalar) : string :=
  match v with
  | SInt z => pretty z
  | SFloat f => float_repr f
  | SStr s => s
  | SBool true => "True"
  | SBool false => "False"
  end.

(** ** Decimal numerals *)

(** A decimal digit. *)
Definition is_digit (ch : Ascii.ascii) : bool :=
  let n := Ascii.nat_of_ascii ch in Nat.leb 48 n && Nat.leb n 57.

(** Digits only: no sign, no separator, no exponent. *)
Fixpoint all_digits (s : string) : bool :=
  match s with
  | EmptyString => true
  | String ch rest => is_digit ch && all_digits rest
  end.

(** ** Sequences indexed the Python way *)

(** [l[i]] for an integer [i]: a negative [i] counts from the end, and an
    [i] outside [-len(l) .. len(l)-1] raises [IndexError]. *)
Definition getitem {A} (l : list A) (i : Z) : result A :=
  let n := Z.of_nat (length l) in
  if (n <=? i) || (i <? - n) then Raise IndexError
  else
    match l !! Z.to_nat (if i <? 0 then i + n else i) with
    | Some x => Ok x
    | None => Raise IndexError
    end.

(** ** pandas *)

Module pd.

(** Every row has one cell per column, and there is one row per label. *)
Definition rectangular (ncols nrows : nat) (values : list (list scalar)) : bool :=
  Nat.eqb (length values) nrows && forallb (λ r, Nat.eqb (length r) ncols) values.

(** A [DataFrame]: column labels, row labels and the cells row by row.
    pandas keeps every frame rectangular, so the type carries that. *)
Record DataFrame : Type := mkDataFrame {
  columns : list scalar;
  index : list scalar;
  values : list (list scalar);
  frame_rect : rectangular (length columns) (length index) values = true
}.

(** [pd.DataFrame()] *)
Definition empty : DataFrame :=
  {| columns := []; index := []; values := []; frame_rect := eq_refl |}.

(** [df.shape] *)
Definition shape (df : DataFrame) : Z * Z :=
  (Z.of_nat (length (index df)), Z.of_nat (length (columns df))).

(** [df.iloc[r, c]] for two integers: the cell at that position, each
    counted from the end when negative; [IndexError] when either lies
    outside the frame. *)
Definition iloc (df : DataFrame) (r c : Z) : result scalar :=
  row ← getitem (values df) r;
  getitem row c.

End pd.

(** ** Python objects handed to the adapter *)

(** [PandasModel.__init__] takes whatever object it is given.  Two kinds
    matter here: a frame, and a plain [dict] of column lists (the raw
    material of a frame, which may be ragged). *)
Inductive pyobj : Type :=
  | ObjFrame (df : pd.DataFrame)
  | ObjDict (items : list (scalar * list scalar)).

(** Attribute lookup of [shape], [iloc], [columns] or [index]: a frame has
    them, a [dict] does not. *)
Definition frame_attr (o : pyobj) : result pd.DataFrame :=
  match o with
  | ObjFrame df => Ok df
  | ObjDict _ => Raise AttributeError
  end.

(** Columns of differing lengths. *)
Definition ragged (o : pyobj) : bool :=
  match o with
  | ObjFrame _ => false
  | ObjDict [] => false
  | ObjDict ((_, c) :: rest) =>
      negb (forallb (λ kc, Nat.eqb (length kc.2) (length c)) rest)
  end.

(** ** Qt *)

Module Qt.

(** [Qt.ItemDataRole.DisplayRole], and the two [Qt.Orientation] values.
    Roles and orientations are integer enumerations; any other integer is
    a role or an axis the adapter does not know. *)
Definition DisplayRole : Z := 0.
Definition Horizontal : Z := 1.
Definition Vertical : Z := 2.

(** Rows and columns are C [int]s on the Qt side. *)
Definition is_int (z : Z) : bool := (- 2 ^ 31 <=? z) && (z <? 2 ^ 31).

(** A [QModelIndex]: a row, a column and whether it points at a model. *)
Record QModelIndex : Type := mkQModelIndex {
  row : Z;
  column : Z;
  has_model : bool
}.

(** [createIndex(row, column)]: an index into the model that makes it. *)
Definition createIndex (r c : Z) : QModelIndex :=
  {| row := r; column := c; has_model := true |}.

(** The default-constructed [QModelIndex()]. *)
Definition no_index : QModelIndex :=
  {| row := -1; column := -1; has_model := false |}.

(** [index.isValid()] *)
Definition isValid (i : QModelIndex) : bool :=
  (0 <=? row i) && (0 <=? column i) && has_model i.

(** The part of [QAbstractTableModel] the adapter inherits: [hasIndex] and
    [index] call back into the subclass's [rowCount] and [columnCount]. *)
Section AbstractTableModel.
Context {St : Type} (rowCount columnCount : Py St Z).
Local Open Scope py_scope.

(** A count asked of the Python subclass from C++: it has to come back,
    and as a C [int]; when the method raises, or returns a wider integer,
    the process is aborted. *)
Definition callback (method : Py St Z) : Py St Z := λ s,
  match method s with
  | (Ok z, s') => if is_int z then (Ok z, s') else (Raise Abort, s')
  | (Raise _, s') => (Raise Abort, s')
  end.

(** The C++ [hasIndex(row, column)]. *)
Definition hasIndex (r c : Z) : Py St bool :=
  if (r <? 0) || (c <? 0) then py_ret false
  else
    rows <~ callback rowCount ;;
    if r <? rows then (cols <~ callback columnCount ;; py_ret (c <? cols))
    else py_ret false.

(** [index(row, column)] called from Python: the arguments are converted
    to C [int]s first, and one that does not fit raises [OverflowError]. *)
Definition index (r c : Z) : Py St QModelIndex :=
  if is_int r && is_int c then
    ok <~ hasIndex r c ;;
    py_ret (if ok : bool then createIndex r c else no_index)
  else py_eval (Raise OverflowError).

End AbstractTableModel.

End Qt.

(** ** class PandasModel(QAbstractTableModel) *)

Record PandasModel : Type := mkPandasModel { _df : pyobj }.

Section PandasModel.
Context `{FloatRepr}.
Local Open Scope py_scope.

(** [__init__(self, df=pd.DataFrame())]: [None] stands for the omitted
    argument. *)
Definition PandasModel__init__ (df : option pyobj) : result PandasModel :=
  Ok {| _df := default (ObjFrame pd.empty) df |}.

Definition rowCount : Py PandasModel Z :=
  self <~ py_self ;;
  df <~ py_eval (frame_attr (_df self)) ;;
  py_ret (pd.shape df).1.

Definition columnCount : Py PandasModel Z :=
  self <~ py_self ;;
  df <~ py_eval (frame_attr (_df self)) ;;
  py_ret (pd.shape df).2.

(** [data(self, index, role)]; the result [None] is Python's [None]. *)
Definition data (index : Qt.QModelIndex) (role : Z) : Py PandasModel (option string) :=
  if negb (Qt.isValid index) then py_ret None
  else if role =? Qt.DisplayRole then
    self <~ py_self ;;
    df <~ py_eval (frame_attr (_df self)) ;;
    value <~ py_eval (pd.iloc df (Qt.row index) (Qt.column index)) ;;
    py_ret (Some (str value))
  else py_ret None.

(** [headerData(self, section, orientation, role)] *)
Definition headerData (section orientation role : Z) : Py PandasModel (option string) :=
  if role =? Qt.DisplayRole then
    if orientation =? Qt.Horizontal then
      self <~ py_self ;;
      df <~ py_eval (frame_attr (_df self)) ;;
      label <~ py_eval (getitem (pd.columns df) section) ;;
      py_ret (Some (str label))
    else if orientation =? Qt.Vertical then
      self <~ py_self ;;
      df <~ py_eval (frame_attr (_df self)) ;;
      label <~ py_eval (getitem (pd.index df) section) ;;
      py_ret (Some (str label))
    else py_ret None
  else py_ret None.

(** [index(row, column)] as inherited from [QAbstractTableModel]. *)
Definition index : Z → Z → Py PandasModel Qt.QModelIndex :=
  Qt.index rowCount columnCount.

End PandasModel.

(** ** class DataApp(QWidget, LogMixin) *)

(** The pandas calls of [get_statistics]; their numerics (floating-point
    summary statistics and rounding) are library code outside the
    repository.  [describe] raises when it has nothing to describe: on a
    frame without columns it is a [ValueError]. *)
Class PandasStats : Type := {
  select_dtypes_number : pd.DataFrame → pd.DataFrame;
  describe : pd.DataFrame → result pd.DataFrame;
  transpose : pd.DataFrame → pd.DataFrame;
  round : pd.DataFrame → Z → pd.DataFrame;
  describe_no_columns :
    ∀ df, pd.columns df = [] → describe df = Raise ValueError
}.

(** A [QTableView], as far as the model installed in it. *)
Record QTableView : Type := mkQTableView { view_model : option PandasModel }.

(** The attributes of the application object that [get_statistics],
    [update_stat] and [log] read or write; [log_widget] is [None] or the
    lines of the log pane. *)
Record DataApp : Type := mkDataApp {
  data_tables : gmap string pd.DataFrame;
  stat_model : PandasModel;
  stat_table : QTableView;
  log_widget : option (list string)
}.

(** [pd.DataFrame([["Таблица не найдена"]], columns=["Ошибка"])]: one row
    under the default positional label [0]. *)
Definition not_found_frame : pd.DataFrame :=
  {| pd.columns := [SStr "Ошибка"];
     pd.index := [SInt 0];
     pd.values := [[SStr "Таблица не найдена"]];
     pd.frame_rect := eq_refl |}.

Section DataApp.
Context `{PandasStats}.
Local Open Scope py_scope.

(** [LogMixin.log] *)
Definition log (message : string) : Py DataApp unit :=
  self <~ py_self ;;
  match log_widget self with
  | Some lines =>
      py_assign (λ s, {| data_tables := data_tables s; stat_model := stat_model s;
                         stat_table := stat_table s;
                         log_widget := Some (lines ++ [message]) |})
  | None => py_ret tt
  end.

(** The [log_action] decorator applied to the method called [name]. *)
Definition log_action {A} (name : string) (func : Py DataApp A) : Py DataApp A :=
  log ("Действие: " +:+ name) ;;;
  func.

Definition get_statistics (table_name : string) : Py DataApp pd.DataFrame :=
  self <~ py_self ;;
  match data_tables self !! table_name with
  | Some df =>
      let df_num := select_dtypes_number df in
      desc <~ py_eval (describe df_num) ;;
      let desc := transpose desc in
      let desc := round desc 2 in
      py_ret desc
  | None => py_ret not_found_frame
  end.

(** [self.stat_table.setModel(model)] *)
Definition setModel (model : PandasModel) : Py DataApp unit :=
  py_assign (λ s, {| data_tables := data_tables s; stat_model := stat_model s;
                     stat_table := {| view_model := Some model |};
                     log_widget := log_widget s |}).

Definition update_stat (table_name : string) : Py DataApp unit :=
  log_action "update_stat" (
    df_stat <~ get_statistics table_name ;;
    model <~ py_eval (PandasModel__init__ (Some (ObjFrame df_stat))) ;;
    py_assign (λ s, {| data_tables := data_tables s; stat_model := model;
                       stat_table := stat_table s;
                       log_widget := log_widget s |}) ;;;
    self <~ py_self ;;
    setModel (stat_model self)).

End DataApp.

(** ** class LogMixin, and calls made one after another *)

(** [LogMixin.__init__]: no log pane yet. *)
Definition LogMixin__init__ : Py DataApp unit :=
  py_assign (λ s, {| data_tables := data_tables s; stat_model := stat_model s;
                     stat_table := stat_table s; log_widget := None |}).

(** [set_log_widget(self, widget)]: [widget] is [None] or a log pane,
    given by the lines it holds. *)
Definition set_log_widget (widget : option (list string)) : Py DataApp unit :=
  py_assign (λ s, {| data_tables := data_tables s; stat_model := stat_model s;
                     stat_table := stat_table s; log_widget := widget |}).

(** [for x in xs: body(x)]: the calls in order, up to the first that
    raises. *)
Fixpoint for_each {St A} (body : A → Py St unit) (xs : list A) : Py St unit :=
  match xs with
  | [] => py_ret tt
  | x :: rest => py_bind (body x) (λ _, for_each body rest)
  end.

(** The calls of [update_stat] that a run over [names] begins: each name
    in turn, up to and including the first whose statistics raise. *)
Fixpoint calls_begun `{PandasStats} (names : list string) (app : DataApp) : nat :=
  match names with
  | [] => 0
  | name :: rest =>
      match (get_statistics name app).1 with
      | Ok _ => S (calls_begun rest app)
      | Raise _ => 1
      end
  end.

(** ** A sample frame and a sample interpreter *)

(** Columns [a], [b]; rows [[1, 2], [3, 4]]; positional row labels. *)
Definition frame_ab : pd.DataFrame :=
  {| pd.columns := [SStr "a"; SStr "b"];
     pd.index := [SInt 0; SInt 1];
     pd.values := [[SInt 1; SInt 2]; [SInt 3; SInt 4]];
     pd.frame_rect := eq_refl |}.

(** The adapter over the sample frame. *)
Definition model_ab : PandasModel := {| _df := ObjFrame frame_ab |}.

(** [{"a": [1, 2], "b": [3]}]: columns of unequal length, not a frame. *)
Definition ragged_columns : pyobj :=
  ObjDict [(SStr "a", [SInt 1; SInt 2]); (SStr "b", [SInt 3])].

(** A float rendering for running examples: right on zeros, infinities
    and not-a-number; the examples hold no other float. *)
Definition repr_special : FloatRepr := λ f,
  match f with
  | S754_zero s => if s then "-0.0" else "0.0"
  | S754_infinity s => if s then "-inf" else "inf"
  | _ => "nan"
  end.

(** A pandas summary for running examples: it keeps the frame as it is,
    except that it refuses a frame without columns, as [describe] does. *)
Definition stats_plain : PandasStats :=
  {| select_dtypes_number := λ df, df;
     describe := λ df, match pd.columns df with [] => Raise ValueError | _ => Ok df end;
     transpose := λ df, df;
     round := λ df _, df;
     describe_no_columns := λ df Hnone,
       @eq_ind_r _ [] (λ cols, match cols with [] => Raise ValueError | _ => Ok df end
                               = Raise ValueError) eq_refl (pd.columns df) Hnone |}.

(** An application holding the one sample table and an empty log pane. *)
Definition app_ab : DataApp :=
  {| data_tables := {[ "ab" := frame_ab ]};
     stat_model := model_ab;
     stat_table := {| view_model := Some model_ab |};
     log_widget := Some [] |}.

(** The same application before a log pane is attached. *)
Definition app_unlogged : DataApp :=
  {| data_tables := {[ "ab" := frame_ab ]};
     stat_model := model_ab;
     stat_table := {| view_model := Some model_ab |};
     log_widget := None |}.

(** An application whose one table has no columns to describe. *)
Definition app_blank : DataApp :=
  {| data_tables := {[ "blank" := pd.empty ]};
     stat_model := model_ab;
     stat_table := {| view_model := Some model_ab |};
     log_widget := Some ["earlier"] |}.

(** * Properties *)

(** ** Indexing *)

Section Indexing.
Context {A : Type}.
Implicit Types (l : list A) (i : Z).

Lemma getitem_nonneg l i :
  0 ≤ i < Z.of_nat (length l) →
  ∃ x, l !! Z.to_nat i = Some x ∧ getitem l i = Ok x.
Proof.
  intros Hi. destruct (lookup_lt_is_Some_2 l (Z.to_nat i)) as [x Hx]; [lia|].
  exists x. split; [done|]. unfold getitem.
  destruct (Z.leb_spec (Z.of_nat (length l)) i); [lia|].
  destruct (Z.ltb_spec i (- Z.of_nat (length l))); [lia|]. simpl.
  destruct (Z.ltb_spec i 0); [lia|]. by rewrite Hx.
Qed.

Lemma getitem_negative l i :
  - Z.of_nat (length l) ≤ i < 0 →
  getitem l i = getitem l (i + Z.of_nat (length l)).
Proof.
  intros Hi. unfold getitem.
  destruct (Z.leb_spec (Z.of_nat (length l)) i); [lia|].
  destruct (Z.ltb_spec i (- Z.of_nat (length l))); [lia|].
  destruct (Z.leb_spec (Z.of_nat (length l)) (i + Z.of_nat (length l))); [lia|].
  destruct (Z.ltb_spec (i + Z.of_nat (length l)) (- Z.of_nat (length l))); [lia|].
  destruct (Z.ltb_spec i 0); [|lia].
  destruct (Z.ltb_spec (i + Z.of_nat (length l)) 0); [lia|]. done.
Qed.

Lemma getitem_outside l i :
  Z.of_nat (length l) ≤ i ∨ i < - Z.of_nat (length l) →
  getitem l i = Raise IndexError.
Proof.
  intros Hi. unfold getitem.
  destruct (Z.leb_spec (Z.of_nat (length l)) i); [done|].
  destruct (Z.ltb_spec i (- Z.of_nat (length l))); [done|]. lia.
Qed.

End Indexing.

(** ** Rendering of integers *)

Lemma pretty_N_char_digit (x : N) : is_digit (pretty_N_char x) = true.
Proof. unfold pretty_N_char. by repeat case_match. Qed.

Lemma pretty_N_go_digits (x : N) (s : string) :
  all_digits s = true → all_digits (pretty_N_go x s) = true.
Proof.
  revert s. induction (N.lt_wf_0 x) as [x _ IH]; intros s Hs.
  assert (x = 0 ∨ 0 < x)%N as [->|Hpos] by lia.
  - by rewrite pretty_N_go_0.
  - rewrite pretty_N_go_step by done. apply IH.
    + by apply N.div_lt.
    + simpl. by rewrite pretty_N_char_digit.
Qed.

Lemma pretty_N_digits (x : N) : all_digits (pretty x) = true.
Proof.
  unfold pretty, pretty_N. case_decide; [done|]. by apply pretty_N_go_digits.
Qed.

(** [str] of an integer is its decimal numeral: digits only, after a
    minus sign when it is negative. *)
Lemma str_int_decimal `{FloatRepr} (z : Z) :
  (0 ≤ z → all_digits (str (SInt z)) = true)
  ∧ (z < 0 → ∃ digits, str (SInt z) = "-" +:+ digits ∧ all_digits digits = true).
Proof.
  split; intros Hz; destruct z as [|p|p]; try lia; simpl.
  - done.
  - apply (pretty_N_digits (N.pos p)).
  - exists (pretty (N.pos p)). split; [done|]. apply pretty_N_digits.
Qed.

(** Different integers are rendered differently. *)
Lemma str_int_inj `{FloatRepr} (a b : Z) : str (SInt a) = str (SInt b) → a = b.
Proof. simpl. apply pretty_Z_inj. Qed.

(** ** Frames are rectangular *)

Lemma frame_rows (df : pd.DataFrame) :
  length (pd.values df) = length (pd.index df).
Proof.
  pose proof (pd.frame_rect df) as Hr. unfold pd.rectangular in Hr.
  apply andb_prop in Hr as [Hn _]. by apply Nat.eqb_eq.
Qed.

Lemma frame_row_width (df : pd.DataFrame) (i : nat) (row : list scalar) :
  pd.values df !! i = Some row → length row = length (pd.columns df).
Proof.
  intros Hrow. pose proof (pd.frame_rect df) as Hr. unfold pd.rectangular in Hr.
  apply andb_prop in Hr as [_ Hw]. rewrite forallb_forall in Hw.
  apply Nat.eqb_eq, Hw, list_elem_of_In. by eapply list_elem_of_lookup_2.
Qed.

Lemma iloc_in_range (df : pd.DataFrame) (r c : Z) :
  0 ≤ r < (pd.shape df).1 → 0 ≤ c < (pd.shape df).2 →
  ∃ row v, pd.values df !! Z.to_nat r = Some row ∧ row !! Z.to_nat c = Some v
           ∧ pd.iloc df r c = Ok v.
Proof.
  intros Hr Hc. simpl in Hr, Hc.
  destruct (getitem_nonneg (pd.values df) r) as (row & Hrow & Hget);
    [by rewrite frame_rows|].
  destruct (getitem_nonneg row c) as (v & Hv & Hgetv);
    [by rewrite (frame_row_width _ _ _ Hrow)|].
  exists row, v. split_and!; [done..|]. unfold pd.iloc.
  rewrite Hget. simpl. done.
Qed.

Lemma iloc_outside (df : pd.DataFrame) (r c : Z) :
  0 ≤ r → 0 ≤ c → (pd.shape df).1 ≤ r ∨ (pd.shape df).2 ≤ c →
  pd.iloc df r c = Raise IndexError.
Proof.
  intros Hr Hc Hout. unfold pd.iloc. simpl in Hout.
  destruct (Z.le_gt_cases (Z.of_nat (length (pd.index df))) r) as [Hrow|Hrow].
  - rewrite getitem_outside; [done|]. rewrite frame_rows. by left.
  - destruct (getitem_nonneg (pd.values df) r) as (row & Hlook & ->);
      [rewrite frame_rows; lia|]. simpl.
    apply getitem_outside. rewrite (frame_row_width _ _ _ Hlook). lia.
Qed.

(** ** The adapter's queries *)

Section Adapter.
Context `{FloatRepr}.
Implicit Types (df : pd.DataFrame) (m : PandasModel) (i : Qt.QModelIndex).

Lemma rowCount_frame df :
  rowCount {| _df := ObjFrame df |} = (Ok (pd.shape df).1, {| _df := ObjFrame df |}).
Proof. reflexivity. Qed.

Lemma columnCount_frame df :
  columnCount {| _df := ObjFrame df |} = (Ok (pd.shape df).2, {| _df := ObjFrame df |}).
Proof. reflexivity. Qed.

Lemma data_invalid i role m :
  Qt.isValid i = false → data i role m = (Ok None, m).
Proof. intros Hi. unfold data. by rewrite Hi. Qed.

Lemma data_other_role i role m :
  role ≠ Qt.DisplayRole → data i role m = (Ok None, m).
Proof.
  intros Hrole. unfold data. destruct (Qt.isValid i); [|done]. simpl.
  by destruct (Z.eqb_spec role Qt.DisplayRole).
Qed.

Lemma data_display df i :
  Qt.isValid i = true →
  data i Qt.DisplayRole {| _df := ObjFrame df |}
  = (v ← pd.iloc df (Qt.row i) (Qt.column i); Ok (Some (str v)),
     {| _df := ObjFrame df |}).
Proof.
  intros Hi. unfold data. rewrite Hi. simpl.
  unfold py_bind, py_self, py_eval, py_ret. simpl.
  by destruct (pd.iloc df (Qt.row i) (Qt.column i)).
Qed.

Lemma isValid_createIndex (r c : Z) :
  Qt.isValid (Qt.createIndex r c) = true ↔ 0 ≤ r ∧ 0 ≤ c.
Proof.
  unfold Qt.isValid. simpl. rewrite andb_true_r, andb_true_iff, !Z.leb_le. done.
Qed.

Lemma isValid_negative (r c : Z) (b : bool) :
  r < 0 ∨ c < 0 → Qt.isValid (Qt.mkQModelIndex r c b) = false.
Proof.
  intros Hneg. unfold Qt.isValid. simpl.
  destruct (Z.leb_spec 0 r), (Z.leb_spec 0 c); simpl; try done; lia.
Qed.

Lemma is_int_iff (z : Z) : Qt.is_int z = true ↔ - 2 ^ 31 ≤ z < 2 ^ 31.
Proof. unfold Qt.is_int. rewrite andb_true_iff, Z.leb_le, Z.ltb_lt. done. Qed.

Lemma is_int_below (z n : Z) : 0 ≤ z < n → Qt.is_int n = true → Qt.is_int z = true.
Proof. rewrite !is_int_iff. lia. Qed.

Lemma index_frame df (r c : Z) :
  Qt.is_int (pd.shape df).1 = true → Qt.is_int (pd.shape df).2 = true →
  index r c {| _df := ObjFrame df |}
  = (if Qt.is_int r && Qt.is_int c
     then Ok (if (0 <=? r) && (r <? (pd.shape df).1)
                 && (0 <=? c) && (c <? (pd.shape df).2)
              then Qt.createIndex r c else Qt.no_index)
     else Raise OverflowError,
     {| _df := ObjFrame df |}).
Proof.
  intros Hrows Hcols. unfold index, Qt.index.
  destruct (Qt.is_int r && Qt.is_int c); [|done]. unfold Qt.hasIndex.
  destruct (Z.ltb_spec r 0) as [Hr|Hr].
  { destruct (Z.leb_spec 0 r); [lia|done]. }
  destruct (Z.ltb_spec c 0) as [Hc|Hc].
  { destruct (Z.leb_spec 0 c); [lia|]. by rewrite andb_false_r. }
  destruct (Z.leb_spec 0 r); [|lia]. destruct (Z.leb_spec 0 c); [|lia].
  cbn [orb andb]. rewrite andb_true_r.
  unfold py_bind at 1 2. unfold Qt.callback at 1. rewrite rowCount_frame, Hrows.
  destruct (Z.ltb_spec r (pd.shape df).1); [|done].
  unfold py_bind, Qt.callback. rewrite columnCount_frame, Hcols.
  by destruct (Z.ltb_spec c (pd.shape df).2).
Qed.

Lemma headerData_other_role (section orientation role : Z) m :
  role ≠ Qt.DisplayRole → headerData section orientation role m = (Ok None, m).
Proof.
  intros Hrole. unfold headerData. by destruct (Z.eqb_spec role Qt.DisplayRole).
Qed.

Lemma headerData_other_axis (section orientation role : Z) m :
  orientation ≠ Qt.Horizontal → orientation ≠ Qt.Vertical →
  headerData section orientation role m = (Ok None, m).
Proof.
  intros Hh Hv. unfold headerData. destruct (role =? Qt.DisplayRole); [|done].
  destruct (Z.eqb_spec orientation Qt.Horizontal); [done|].
  by destruct (Z.eqb_spec orientation Qt.Vertical).
Qed.

(** The labels an orientation selects: column names across, row labels
    down. *)
Lemma headerData_display df (section orientation : Z) :
  orientation = Qt.Horizontal ∨ orientation = Qt.Vertical →
  headerData section orientation Qt.DisplayRole {| _df := ObjFrame df |}
  = (label ← getitem (if orientation =? Qt.Horizontal then pd.columns df else pd.index df)
                     section;
     Ok (Some (str label)),
     {| _df := ObjFrame df |}).
Proof.
  intros [-> | ->]; unfold headerData; simpl;
    unfold py_bind, py_self, py_eval, py_ret; simpl.
  - by destruct (getitem (pd.columns df) section).
  - by destruct (getitem (pd.index df) section).
Qed.

(** None of the queries assigns to the adapter. *)
Lemma rowCount_state m : (rowCount m).2 = m.
Proof. by destruct m as [[df|items]]. Qed.

Lemma columnCount_state m : (columnCount m).2 = m.
Proof. by destruct m as [[df|items]]. Qed.

Lemma data_state i role m : (data i role m).2 = m.
Proof.
  unfold data. destruct (negb (Qt.isValid i)); [done|].
  destruct (role =? Qt.DisplayRole); [|done].
  destruct m as [[df|items]]; [|done].
  unfold py_bind, py_self, py_eval, py_ret. simpl.
  by destruct (pd.iloc df (Qt.row i) (Qt.column i)).
Qed.

Lemma headerData_state (section orientation role : Z) m :
  (headerData section orientation role m).2 = m.
Proof.
  unfold headerData. destruct (role =? Qt.DisplayRole); [|done].
  destruct m as [[df|items]].
  - destruct (orientation =? Qt.Horizontal);
      [|destruct (orientation =? Qt.Vertical); [|done]];
      unfold py_bind, py_self, py_eval, py_ret; simpl.
    + by destruct (getitem (pd.columns df) section).
    + by destruct (getitem (pd.index df) section).
  - by destruct (orientation =? Qt.Horizontal), (orientation =? Qt.Vertical).
Qed.

Lemma index_state (r c : Z) m : (index r c m).2 = m.
Proof.
  unfold index, Qt.index, Qt.hasIndex.
  destruct (Qt.is_int r && Qt.is_int c); [|done].
  destruct ((r <? 0) || (c <? 0)); [done|].
  destruct m as [[df|items]]; [|done].
  unfold py_bind at 1 2. unfold Qt.callback at 1. rewrite rowCount_frame.
  destruct (Qt.is_int (pd.shape df).1); [|done].
  destruct (r <? (pd.shape df).1); [|done].
  unfold py_bind, Qt.callback. rewrite columnCount_frame.
  by destruct (Qt.is_int (pd.shape df).2).
Qed.

(** Asking twice gives the same answer twice. *)
Lemma data_repeatable i role m :
  data i role (data i role m).2 = data i role m.
Proof. by rewrite data_state. Qed.

(** The text of a cell is a function of the cell alone: frames that hold
    equal values at a position are rendered alike there. *)
Lemma data_depends_on_cell df1 df2 i :
  pd.iloc df1 (Qt.row i) (Qt.column i) = pd.iloc df2 (Qt.row i) (Qt.column i) →
  (data i Qt.DisplayRole {| _df := ObjFrame df1 |}).1
  = (data i Qt.DisplayRole {| _df := ObjFrame df2 |}).1.
Proof.
  intros Hcell. destruct (Qt.isValid i) eqn:Hi.
  - rewrite !data_display by done. simpl. by rewrite Hcell.
  - by rewrite !data_invalid.
Qed.

End Adapter.

(** ** What the adapter answers *)

Section AdapterAnswers.
Context `{FloatRepr}.
Implicit Types (df : pd.DataFrame) (m : PandasModel).

(** C4. For every frame the adapter holds, [rowCount] returns the number
    of rows of the frame (its row labels, which are as many as its rows of
    cells) and [columnCount] the number of its columns; neither raises, and
    on the empty frame, which is also what an adapter built without an
    argument holds, both return 0. *)
Theorem rowCount_columnCount_shape df :
  rowCount {| _df := ObjFrame df |}
    = (Ok (Z.of_nat (length (pd.values df))), {| _df := ObjFrame df |})
  ∧ length (pd.values df) = length (pd.index df)
  ∧ columnCount {| _df := ObjFrame df |}
    = (Ok (Z.of_nat (length (pd.columns df))), {| _df := ObjFrame df |})
  ∧ PandasModel__init__ None = Ok {| _df := ObjFrame pd.empty |}
  ∧ rowCount {| _df := ObjFrame pd.empty |} = (Ok 0, {| _df := ObjFrame pd.empty |})
  ∧ columnCount {| _df := ObjFrame pd.empty |} = (Ok 0, {| _df := ObjFrame pd.empty |}).
Proof.
  split_and!; try reflexivity.
  - rewrite rowCount_frame. simpl. by rewrite frame_rows.
  - apply frame_rows.
Qed.

(** C3. For every frame built from known cells and every [(r, c)] with
    [0 <= r < rowCount()] and [0 <= c < columnCount()], [data] on the valid
    index of [(r, c)], under the display role, returns exactly [str] of the
    cell stored in row [r], column [c]; the adapter is left as it was.
    That index is the one the model hands out for [(r, c)], the counts
    being such as Qt can hold. *)
Theorem data_reads_back_cell
    (cols idx : list scalar) (cells : list (list scalar))
    (Hrect : pd.rectangular (length cols) (length idx) cells = true)
    (m : PandasModel) (r c nr nc : Z) :
  PandasModel__init__ (Some (ObjFrame (pd.mkDataFrame cols idx cells Hrect))) = Ok m →
  rowCount m = (Ok nr, m) → columnCount m = (Ok nc, m) →
  0 ≤ r < nr → 0 ≤ c < nc →
  ∃ row v,
    cells !! Z.to_nat r = Some row ∧ row !! Z.to_nat c = Some v
    ∧ (Qt.is_int nr = true → Qt.is_int nc = true →
       index r c m = (Ok (Qt.createIndex r c), m))
    ∧ data (Qt.createIndex r c) Qt.DisplayRole m = (Ok (Some (str v)), m).
Proof.
  intros [= <-] Hnr Hnc Hr Hc.
  rewrite rowCount_frame in Hnr. rewrite columnCount_frame in Hnc.
  injection Hnr as <-. injection Hnc as <-.
  destruct (iloc_in_range (pd.mkDataFrame cols idx cells Hrect) r c Hr Hc)
    as (row & v & Hrow & Hv & Hiloc).
  exists row, v. split_and!; [done..| |].
  - intros Hrows Hcols. rewrite index_frame by done.
    rewrite (is_int_below r _ Hr Hrows), (is_int_below c _ Hc Hcols).
    destruct (Z.leb_spec 0 r), (Z.leb_spec 0 c),
      (Z.ltb_spec r (pd.shape (pd.mkDataFrame cols idx cells Hrect)).1),
      (Z.ltb_spec c (pd.shape (pd.mkDataFrame cols idx cells Hrect)).2);
      simpl in *; try lia; done.
  - rewrite data_display by (apply isValid_createIndex; lia).
    simpl in Hiloc |- *. by rewrite Hiloc.
Qed.

(** C9. For every in-bounds [(r, c)], [data] returns the stringified cell
    under the display role and [None] under every other role, although the
    index is valid; [headerData] too returns [None] under every role other
    than the display role, whatever the section and the orientation. *)
Theorem data_only_under_display_role df m (r c role : Z) :
  PandasModel__init__ (Some (ObjFrame df)) = Ok m →
  0 ≤ r < (pd.shape df).1 → 0 ≤ c < (pd.shape df).2 →
  Qt.isValid (Qt.createIndex r c) = true
  ∧ (∃ v, pd.iloc df r c = Ok v
          ∧ data (Qt.createIndex r c) Qt.DisplayRole m = (Ok (Some (str v)), m))
  ∧ (role ≠ Qt.DisplayRole → data (Qt.createIndex r c) role m = (Ok None, m))
  ∧ (role ≠ Qt.DisplayRole →
     ∀ section orientation, headerData section orientation role m = (Ok None, m)).
Proof.
  intros [= <-] Hr Hc.
  assert (Qt.isValid (Qt.createIndex r c) = true) as Hvalid
    by (apply isValid_createIndex; lia).
  split_and!; [done| |apply data_other_role|].
  - destruct (iloc_in_range df r c Hr Hc) as (row & v & _ & _ & Hiloc).
    exists v. split; [done|]. rewrite data_display by done. simpl.
    by rewrite Hiloc.
  - intros Hrole section orientation. by apply headerData_other_role.
Qed.

(** C1, as amended. Rows and columns reach the adapter as Qt's C ints.
    For every out-of-range pair of them (a negative row or column,
    [row >= rowCount()] or [column >= columnCount()]) the index the model
    hands out is the invalid one, and [data] returns [None] without raising
    on it, as on every index with a negative row or column, under every
    role.  [data] has no bounds check of its own: on a valid index that
    carries such a pair it raises [IndexError] under the display role.  An
    integer too wide for a C int does not get as far as [data]: [index]
    raises [OverflowError] on it. *)
Theorem data_out_of_range df m (r c role nr nc : Z) :
  PandasModel__init__ (Some (ObjFrame df)) = Ok m →
  rowCount m = (Ok nr, m) → columnCount m = (Ok nc, m) →
  Qt.is_int nr = true → Qt.is_int nc = true →
  r < 0 ∨ c < 0 ∨ nr ≤ r ∨ nc ≤ c →
  index r c m
  = (if Qt.is_int r && Qt.is_int c then Ok Qt.no_index else Raise OverflowError, m)
  ∧ data Qt.no_index role m = (Ok None, m)
  ∧ (Qt.is_int r = true → Qt.is_int c = true →
     (∀ b, r < 0 ∨ c < 0 → data (Qt.mkQModelIndex r c b) role m = (Ok None, m))
     ∧ (0 ≤ r → 0 ≤ c →
        data (Qt.createIndex r c) Qt.DisplayRole m = (Raise IndexError, m))).
Proof.
  intros [= <-] Hnr Hnc Hrows Hcols Hout.
  rewrite rowCount_frame in Hnr. rewrite columnCount_frame in Hnc.
  injection Hnr as <-. injection Hnc as <-.
  split_and!.
  - rewrite index_frame by done.
    destruct (Qt.is_int r && Qt.is_int c); [|done].
    destruct (Z.leb_spec 0 r), (Z.leb_spec 0 c),
      (Z.ltb_spec r (pd.shape df).1), (Z.ltb_spec c (pd.shape df).2);
      simpl in *; try lia; done.
  - by apply data_invalid.
  - intros _ _. split.
    + intros b Hneg. by apply data_invalid, isValid_negative.
    + intros Hr Hc. rewrite data_display by (apply isValid_createIndex; lia).
      simpl Qt.row. simpl Qt.column. rewrite iloc_outside; [done..|simpl; lia].
Qed.

(** C2, as amended. For every unrecognized axis, as for every role other
    than the display role, [headerData] returns [None] and never raises,
    whatever the section.  On a recognized axis with [n] labels it has no
    bounds check under the display role: a section [>= n] or [< -n] raises
    [IndexError], and a section in [-n .. -1] returns the label counted
    from the end, at [section + n]. *)
Theorem headerData_out_of_range df m (section orientation : Z) :
  let labels := if orientation =? Qt.Horizontal then pd.columns df else pd.index df in
  let n := Z.of_nat (length labels) in
  PandasModel__init__ (Some (ObjFrame df)) = Ok m →
  (orientation ≠ Qt.Horizontal → orientation ≠ Qt.Vertical →
   ∀ role, headerData section orientation role m = (Ok None, m))
  ∧ (∀ role, role ≠ Qt.DisplayRole →
     headerData section orientation role m = (Ok None, m))
  ∧ (orientation = Qt.Horizontal ∨ orientation = Qt.Vertical →
     n ≤ section ∨ section < - n →
     headerData section orientation Qt.DisplayRole m = (Raise IndexError, m))
  ∧ (orientation = Qt.Horizontal ∨ orientation = Qt.Vertical →
     - n ≤ section < 0 →
     ∃ label, labels !! Z.to_nat (section + n) = Some label
       ∧ headerData section orientation Qt.DisplayRole m = (Ok (Some (str label)), m)).
Proof.
  intros labels n [= <-]. split_and!.
  - intros Hh Hv role. by apply headerData_other_axis.
  - intros role Hrole. by apply headerData_other_role.
  - intros Hax Hout. rewrite headerData_display by done.
    fold labels. by rewrite getitem_outside.
  - intros Hax Hneg. rewrite headerData_display by done. fold labels.
    rewrite getitem_negative by done. fold n.
    destruct (getitem_nonneg labels (section + n)) as (label & Hl & Hget); [lia|].
    exists label. split; [done|]. by rewrite Hget.
Qed.

(** C5, as amended. Building the adapter never aborts: [__init__] keeps the
    object it is given, or the empty frame when it is given none, without
    looking at it.  Held in a frame, columns cannot be ragged, every row
    having one cell per column; a ragged [dict] of columns is accepted like
    any other object, and the failure comes later, from the queries that
    reach for the frame: [rowCount] and [columnCount] raise
    [AttributeError], [data] raises it on a valid index under the display
    role and [headerData] on a horizontal or vertical orientation under the
    display role, while on their guarded paths the two still answer
    [None]. *)
Theorem init_never_aborts (arg : option pyobj) :
  ∃ m, PandasModel__init__ arg = Ok m
    ∧ _df m = default (ObjFrame pd.empty) arg
    ∧ (∀ df, _df m = ObjFrame df →
       ragged (_df m) = false
       ∧ ∀ k row, pd.values df !! k = Some row → length row = length (pd.columns df))
    ∧ (∀ items, _df m = ObjDict items →
       rowCount m = (Raise AttributeError, m)
       ∧ columnCount m = (Raise AttributeError, m)
       ∧ (∀ i role,
            data i role m
            = (if Qt.isValid i && (role =? Qt.DisplayRole)
               then Raise AttributeError else Ok None, m))
       ∧ (∀ section orientation role,
            headerData section orientation role m
            = (if (role =? Qt.DisplayRole)
                  && ((orientation =? Qt.Horizontal) || (orientation =? Qt.Vertical))
               then Raise AttributeError else Ok None, m))).
Proof.
  exists {| _df := default (ObjFrame pd.empty) arg |}. split_and!; [done..| |].
  - simpl. intros df ->. split; [done|]. intros k row. apply frame_row_width.
  - simpl. intros items Hitems. rewrite Hitems. split_and!; [done..| |].
    + intros i role. unfold data.
      by destruct (Qt.isValid i), (role =? Qt.DisplayRole).
    + intros section orientation role. unfold headerData.
      by destruct (role =? Qt.DisplayRole), (orientation =? Qt.Horizontal),
        (orientation =? Qt.Vertical).
Qed.

End AdapterAnswers.

(** ** Replacing the adapter *)

Section Application.
Context `{FloatRepr} `{PandasStats}.
Implicit Types (app : DataApp) (m : PandasModel) (df : pd.DataFrame).

(** What [get_statistics] computes from the table registry. *)
Lemma get_statistics_eq app (table_name : string) :
  get_statistics table_name app
  = (match data_tables app !! table_name with
     | Some df =>
         desc ← describe (select_dtypes_number df); Ok (round (transpose desc) 2)
     | None => Ok not_found_frame
     end, app).
Proof.
  unfold get_statistics, py_bind, py_self, py_eval, py_ret.
  destruct (data_tables app !! table_name) as [df|]; [|done].
  by destruct (describe (select_dtypes_number df)).
Qed.

(** Logging touches the log pane only. *)
Lemma log_eq app (message : string) :
  log message app
  = (Ok tt, {| data_tables := data_tables app; stat_model := stat_model app;
               stat_table := stat_table app;
               log_widget := (λ lines, lines ++ [message]) <$> log_widget app |}).
Proof.
  unfold log, py_bind, py_self, py_assign, py_ret. destruct app as [t sm st [lines|]]; done.
Qed.

(** [update_stat], run to its end. *)
Lemma update_stat_eq app (table_name : string) :
  let logged := (λ lines, lines ++ ["Действие: update_stat"]) <$> log_widget app in
  update_stat table_name app
  = match (get_statistics table_name app).1 with
    | Ok df_stat =>
        (Ok tt, {| data_tables := data_tables app;
                   stat_model := {| _df := ObjFrame df_stat |};
                   stat_table := {| view_model := Some {| _df := ObjFrame df_stat |} |};
                   log_widget := logged |})
    | Raise e =>
        (Raise e, {| data_tables := data_tables app; stat_model := stat_model app;
                     stat_table := stat_table app; log_widget := logged |})
    end.
Proof.
  intros logged. unfold update_stat, log_action.
  unfold py_bind at 1. rewrite log_eq. fold logged.
  unfold py_bind at 1. rewrite !get_statistics_eq. simpl.
  by destruct (match data_tables app !! table_name with
               | Some df => _ | None => _ end).
Qed.

(** C10, as amended. For every table name missing from [data_tables],
    [get_statistics] does not raise and returns the table of one row and
    one column, the column named "Ошибка" and the cell holding "Таблица не
    найдена".  For every name that is present it hands the table to pandas,
    [select_dtypes(include='number')] then [describe()]: when [describe]
    yields a summary it returns that summary after [transpose()] and
    [round(2)], and when [describe] raises it raises the same, which is a
    [ValueError] for a table without numeric columns.  It leaves the
    application as it was in every case. *)
Theorem get_statistics_cases app (table_name : string) :
  (data_tables app !! table_name = None →
   get_statistics table_name app = (Ok not_found_frame, app)
   ∧ pd.shape not_found_frame = (1, 1)
   ∧ pd.columns not_found_frame = [SStr "Ошибка"]
   ∧ pd.values not_found_frame = [[SStr "Таблица не найдена"]])
  ∧ (∀ df desc, data_tables app !! table_name = Some df →
     describe (select_dtypes_number df) = Ok desc →
     get_statistics table_name app = (Ok (round (transpose desc) 2), app))
  ∧ (∀ df e, data_tables app !! table_name = Some df →
     describe (select_dtypes_number df) = Raise e →
     get_statistics table_name app = (Raise e, app))
  ∧ (∀ df, data_tables app !! table_name = Some df →
     pd.columns (select_dtypes_number df) = [] →
     get_statistics table_name app = (Raise ValueError, app)).
Proof.
  split_and!.
  - intros Hnone. rewrite get_statistics_eq, Hnone. done.
  - intros df desc Hsome Hdesc. by rewrite get_statistics_eq, Hsome, Hdesc.
  - intros df e Hsome Hdesc. by rewrite get_statistics_eq, Hsome, Hdesc.
  - intros df Hsome Hnone.
    by rewrite get_statistics_eq, Hsome, (describe_no_columns _ Hnone).
Qed.

(** C6. For every state of the application and every frame [df_stat] that
    [get_statistics] yields for the chosen table, [update_stat] ends
    normally and the adapter it installs, both as [stat_model] and in the
    view, answers [rowCount] and [columnCount] with the dimensions of [df_stat],
    whatever the adapter before held. *)
Theorem update_stat_dimensions app app0 (table_name : string) (df_stat : pd.DataFrame) :
  get_statistics table_name app = (Ok df_stat, app0) →
  ∃ app',
    update_stat table_name app = (Ok tt, app')
    ∧ rowCount (stat_model app') = (Ok (pd.shape df_stat).1, stat_model app')
    ∧ columnCount (stat_model app') = (Ok (pd.shape df_stat).2, stat_model app')
    ∧ view_model (stat_table app') = Some (stat_model app').
Proof.
  intros Hstat. pose proof (update_stat_eq app table_name) as Hupd.
  rewrite Hstat in Hupd. simpl in Hupd. rewrite Hupd.
  eexists. split; [reflexivity|]. simpl. done.
Qed.

(** C7. [rowCount], [columnCount], [data] and [headerData] (and the
    inherited [index]) leave the adapter, hence the frame it holds, as it
    was, whether they return or raise.  [get_statistics] leaves the
    application as it was, and [update_stat] leaves the tables as they
    were: when the statistics are computed it rebinds [stat_model] and the
    view to a new adapter that holds the new frame whole, and when they
    are not it keeps the adapter it had. *)
Theorem queries_leave_snapshot m (i : Qt.QModelIndex) (r c role section orientation : Z)
    app (table_name : string) :
  (rowCount m).2 = m
  ∧ (columnCount m).2 = m
  ∧ (data i role m).2 = m
  ∧ (headerData section orientation role m).2 = m
  ∧ (index r c m).2 = m
  ∧ (get_statistics table_name app).2 = app
  ∧ data_tables (update_stat table_name app).2 = data_tables app
  ∧ match (get_statistics table_name app).1 with
    | Ok df_stat =>
        stat_model (update_stat table_name app).2 = {| _df := ObjFrame df_stat |}
        ∧ stat_table (update_stat table_name app).2
          = {| view_model := Some {| _df := ObjFrame df_stat |} |}
    | Raise _ =>
        stat_model (update_stat table_name app).2 = stat_model app
        ∧ stat_table (update_stat table_name app).2 = stat_table app
    end.
Proof.
  split_and!.
  - apply rowCount_state.
  - apply columnCount_state.
  - apply data_state.
  - apply headerData_state.
  - apply index_state.
  - by rewrite get_statistics_eq.
  - rewrite update_stat_eq. by destruct (get_statistics table_name app).1.
  - rewrite update_stat_eq. by destruct (get_statistics table_name app).1.
Qed.

End Application.

(** ** The sample frame, queried *)

(** The adapter over the sample frame reads a cell back and names a
    column. *)
Example model_ab_answers :
  rowCount model_ab = (Ok 2, model_ab)
  ∧ columnCount model_ab = (Ok 2, model_ab)
  ∧ @data repr_special (Qt.createIndex 0 1) Qt.DisplayRole model_ab
    = (Ok (Some "2"), model_ab)
  ∧ @headerData repr_special 0 Qt.Horizontal Qt.DisplayRole model_ab
    = (Ok (Some "a"), model_ab)
  ∧ index 5 0 model_ab = (Ok Qt.no_index, model_ab)
  ∧ @data repr_special Qt.no_index Qt.DisplayRole model_ab = (Ok None, model_ab).
Proof. by vm_compute. Qed.

(** The registry lookup of [get_statistics], on a name that is there and
    on one that is not. *)
Example app_ab_statistics :
  @get_statistics stats_plain "ab" app_ab = (Ok frame_ab, app_ab)
  ∧ @get_statistics stats_plain "zz" app_ab = (Ok not_found_frame, app_ab)
  ∧ @data repr_special (Qt.createIndex 0 0) Qt.DisplayRole
      {| _df := ObjFrame not_found_frame |}
    = (Ok (Some "Таблица не найдена"), {| _df := ObjFrame not_found_frame |}).
Proof. by vm_compute. Qed.

(** C1 fails as stated: row 5 is out of range for the two-row sample
    frame, the index carrying it is valid, and [data] raises on it. *)
Lemma data_beyond_rows_raises :
  PandasModel__init__ (Some (ObjFrame frame_ab)) = Ok model_ab
  ∧ rowCount model_ab = (Ok 2, model_ab)
  ∧ 2 ≤ Qt.row (Qt.createIndex 5 0)
  ∧ Qt.isValid (Qt.createIndex 5 0) = true
  ∧ @data repr_special (Qt.createIndex 5 0) Qt.DisplayRole model_ab
    = (Raise IndexError, model_ab).
Proof. split_and!; by vm_compute. Qed.

Lemma data_out_of_range_witness :
  index 5 0 model_ab = (Ok Qt.no_index, model_ab)
  ∧ @data repr_special Qt.no_index Qt.DisplayRole model_ab = (Ok None, model_ab)
  ∧ (Qt.is_int 5 = true → Qt.is_int 0 = true →
     (∀ b, 5 < 0 ∨ 0 < 0 →
        @data repr_special (Qt.mkQModelIndex 5 0 b) Qt.DisplayRole model_ab
        = (Ok None, model_ab))
     ∧ (0 ≤ 5 → 0 ≤ 0 →
        @data repr_special (Qt.createIndex 5 0) Qt.DisplayRole model_ab
        = (Raise IndexError, model_ab))).
Proof.
  apply (@data_out_of_range repr_special frame_ab model_ab 5 0 Qt.DisplayRole 2 2);
    [reflexivity | reflexivity | reflexivity | reflexivity | reflexivity | lia].
Defined.

(** C2 fails as stated: section 5 is out of range for the two columns of
    the sample frame and [headerData] raises on it, and section -1, out of
    range as well, is answered with the last column's name. *)
Lemma headerData_beyond_columns_raises :
  columnCount model_ab = (Ok 2, model_ab)
  ∧ @headerData repr_special 5 Qt.Horizontal Qt.DisplayRole model_ab
    = (Raise IndexError, model_ab)
  ∧ @headerData repr_special (-1) Qt.Horizontal Qt.DisplayRole model_ab
    = (Ok (Some "b"), model_ab).
Proof. split_and!; by vm_compute. Qed.

Lemma headerData_out_of_range_witness :
  ∃ label, [SInt 0; SInt 1] !! Z.to_nat (-1 + 2) = Some label
    ∧ @headerData repr_special (-1) Qt.Vertical Qt.DisplayRole model_ab
      = (Ok (Some (@str repr_special label)), model_ab).
Proof.
  destruct (@headerData_out_of_range repr_special frame_ab model_ab (-1) Qt.Vertical)
    as (_ & _ & _ & Hneg); [reflexivity|].
  apply Hneg; [right; reflexivity | simpl; lia].
Defined.

Lemma data_reads_back_cell_witness :
  ∃ row v,
    [[SInt 1; SInt 2]; [SInt 3; SInt 4]] !! Z.to_nat 1 = Some row
    ∧ row !! Z.to_nat 0 = Some v
    ∧ (Qt.is_int 2 = true → Qt.is_int 2 = true →
       index 1 0 model_ab = (Ok (Qt.createIndex 1 0), model_ab))
    ∧ @data repr_special (Qt.createIndex 1 0) Qt.DisplayRole model_ab
      = (Ok (Some (@str repr_special v)), model_ab).
Proof.
  apply (@data_reads_back_cell repr_special
           [SStr "a"; SStr "b"] [SInt 0; SInt 1]
           [[SInt 1; SInt 2]; [SInt 3; SInt 4]] eq_refl model_ab 1 0 2 2);
    [reflexivity | reflexivity | reflexivity | lia | lia].
Defined.

Lemma data_only_under_display_role_witness :
  Qt.isValid (Qt.createIndex 1 1) = true
  ∧ (∃ v, pd.iloc frame_ab 1 1 = Ok v
          ∧ @data repr_special (Qt.createIndex 1 1) Qt.DisplayRole model_ab
            = (Ok (Some (@str repr_special v)), model_ab))
  ∧ (2 ≠ Qt.DisplayRole →
     @data repr_special (Qt.createIndex 1 1) 2 model_ab = (Ok None, model_ab))
  ∧ (2 ≠ Qt.DisplayRole →
     ∀ section orientation,
       @headerData repr_special section orientation 2 model_ab = (Ok None, model_ab)).
Proof.
  apply (@data_only_under_display_role repr_special frame_ab model_ab 1 1 2);
    [reflexivity | simpl; lia | simpl; lia].
Defined.

(** C5 fails as stated: the ragged columns are accepted. *)
Lemma init_accepts_ragged_columns :
  ragged ragged_columns = true
  ∧ PandasModel__init__ (Some ragged_columns) = Ok {| _df := ragged_columns |}.
Proof. split; reflexivity. Qed.

Lemma init_never_aborts_witness :
  ∃ m, PandasModel__init__ (Some ragged_columns) = Ok m ∧ _df m = ragged_columns
    ∧ rowCount m = (Raise AttributeError, m)
    ∧ columnCount m = (Raise AttributeError, m)
    ∧ @data repr_special (Qt.createIndex 0 0) Qt.DisplayRole m
      = (Raise AttributeError, m)
    ∧ @data repr_special Qt.no_index Qt.DisplayRole m = (Ok None, m).
Proof.
  destruct (@init_never_aborts repr_special (Some ragged_columns))
    as (m & Hinit & Hdf & _ & Hdict).
  destruct (Hdict [(SStr "a", [SInt 1; SInt 2]); (SStr "b", [SInt 3])] Hdf)
    as (Hrows & Hcols & Hdata & _).
  exists m. split; [exact Hinit|]. split; [exact Hdf|].
  split; [exact Hrows|]. split; [exact Hcols|].
  split; [exact (Hdata (Qt.createIndex 0 0) Qt.DisplayRole)
         |exact (Hdata Qt.no_index Qt.DisplayRole)].
Defined.

(** C10 fails as stated: the table is present, it has no numeric column,
    and no summary comes back. *)
Lemma get_statistics_raises_on_blank_table :
  data_tables app_blank !! "blank" = Some pd.empty
  ∧ pd.columns (@select_dtypes_number stats_plain pd.empty) = []
  ∧ @get_statistics stats_plain "blank" app_blank = (Raise ValueError, app_blank).
Proof. split_and!; by vm_compute. Qed.

Lemma get_statistics_cases_witness :
  (@get_statistics stats_plain "zz" app_ab = (Ok not_found_frame, app_ab)
   ∧ pd.shape not_found_frame = (1, 1)
   ∧ pd.columns not_found_frame = [SStr "Ошибка"]
   ∧ pd.values not_found_frame = [[SStr "Таблица не найдена"]])
  ∧ @get_statistics stats_plain "ab" app_ab
    = (Ok (@round stats_plain (@transpose stats_plain frame_ab) 2), app_ab)
  ∧ @get_statistics stats_plain "blank" app_blank = (Raise ValueError, app_blank).
Proof.
  split; [|split].
  - apply (@get_statistics_cases stats_plain app_ab "zz"). vm_compute. reflexivity.
  - apply (@get_statistics_cases stats_plain app_ab "ab") with (df := frame_ab);
      vm_compute; reflexivity.
  - apply (@get_statistics_cases stats_plain app_blank "blank") with (df := pd.empty);
      vm_compute; reflexivity.
Defined.

Lemma update_stat_dimensions_witness :
  ∃ app',
    @update_stat stats_plain "zz" app_ab = (Ok tt, app')
    ∧ rowCount (stat_model app') = (Ok 1, stat_model app')
    ∧ columnCount (stat_model app') = (Ok 1, stat_model app')
    ∧ view_model (stat_table app') = Some (stat_model app').
Proof.
  apply (@update_stat_dimensions stats_plain app_ab app_ab "zz" not_found_frame).
  vm_compute. reflexivity.
Defined.

(** ** Exactly when the adapter raises *)

Section AdapterErrors.
Context `{FloatRepr}.
Implicit Types (df : pd.DataFrame) (m : PandasModel) (i : Qt.QModelIndex).

Lemma getitem_raise_iff {A} (l : list A) (k : Z) (e : PyExc) :
  getitem l k = Raise e
  ↔ e = IndexError ∧ (Z.of_nat (length l) ≤ k ∨ k < - Z.of_nat (length l)).
Proof.
  split.
  - intros Hraise.
    destruct (Z.le_gt_cases (Z.of_nat (length l)) k) as [Hhi|Hhi].
    { rewrite getitem_outside in Hraise by (by left). split; [congruence|by left]. }
    destruct (Z.lt_ge_cases k (- Z.of_nat (length l))) as [Hlo|Hlo].
    { rewrite getitem_outside in Hraise by (by right). split; [congruence|by right]. }
    destruct (Z.lt_ge_cases k 0) as [Hneg|Hpos].
    + rewrite getitem_negative in Hraise by lia.
      destruct (getitem_nonneg l (k + Z.of_nat (length l))) as (x & _ & Hok); [lia|].
      congruence.
    + destruct (getitem_nonneg l k) as (x & _ & Hok); [lia|]. congruence.
  - intros [-> Hout]. by apply getitem_outside.
Qed.

Lemma iloc_raise_iff df (r c : Z) (e : PyExc) :
  0 ≤ r → 0 ≤ c →
  pd.iloc df r c = Raise e
  ↔ e = IndexError ∧ ((pd.shape df).1 ≤ r ∨ (pd.shape df).2 ≤ c).
Proof.
  intros Hr Hc. split.
  - intros Hraise.
    destruct (Z.le_gt_cases (pd.shape df).1 r) as [Hrow|Hrow].
    { rewrite iloc_outside in Hraise by auto. split; [congruence|by left]. }
    destruct (Z.le_gt_cases (pd.shape df).2 c) as [Hcol|Hcol].
    { rewrite iloc_outside in Hraise by auto. split; [congruence|by right]. }
    destruct (iloc_in_range df r c) as (row & v & _ & _ & Hok); [lia..|].
    congruence.
  - intros [-> Hout]. by apply iloc_outside.
Qed.

(** X1. On an adapter over a frame, [data] raises exactly when the index
    is valid, the role is the display role and the row or the column lies
    at or beyond the frame's shape; what it raises then is [IndexError]. *)
Theorem data_raises_exactly df i (role : Z) (e : PyExc) :
  (data i role {| _df := ObjFrame df |}).1 = Raise e
  ↔ e = IndexError ∧ Qt.isValid i = true ∧ role = Qt.DisplayRole
    ∧ ((pd.shape df).1 ≤ Qt.row i ∨ (pd.shape df).2 ≤ Qt.column i).
Proof.
  destruct (Qt.isValid i) eqn:Hvalid.
  - destruct (Z.eq_dec role Qt.DisplayRole) as [->|Hrole].
    + assert (0 ≤ Qt.row i ∧ 0 ≤ Qt.column i) as [Hr Hc].
      { unfold Qt.isValid in Hvalid.
        apply andb_prop in Hvalid as [Hvalid _].
        apply andb_prop in Hvalid as [Hr Hc]. lia. }
      rewrite data_display by done. simpl.
      pose proof (iloc_raise_iff df _ _ e Hr Hc) as Hiff.
      destruct (pd.iloc df (Qt.row i) (Qt.column i)) as [v|e0]; simpl.
      * split; [discriminate|]. intros (He & _ & _ & Hout).
        assert (Ok v = Raise e) as Hbad by (apply Hiff; tauto). discriminate Hbad.
      * split.
        { intros [= ->]. destruct Hiff as [Hiff _]. specialize (Hiff eq_refl). tauto. }
        intros (He & _ & _ & Hout).
        assert (@Raise scalar e0 = Raise e) as [= ->] by (apply Hiff; tauto). done.
    + rewrite data_other_role by done. simpl.
      split; [discriminate|]. intros (_ & _ & ? & _). contradiction.
  - rewrite data_invalid by done. simpl.
    split; [discriminate|]. intros (_ & ? & _). discriminate.
Qed.

(** X2. On an adapter over a frame, [headerData] raises exactly when the
    role is the display role, the orientation is horizontal or vertical
    and the section lies outside [-n .. n-1], [n] being the number of
    labels on that axis; what it raises then is [IndexError]. *)
Theorem headerData_raises_exactly df (section orientation role : Z) (e : PyExc) :
  (headerData section orientation role {| _df := ObjFrame df |}).1 = Raise e
  ↔ e = IndexError ∧ role = Qt.DisplayRole
    ∧ (orientation = Qt.Horizontal ∨ orientation = Qt.Vertical)
    ∧ (Z.of_nat (length (if orientation =? Qt.Horizontal
                         then pd.columns df else pd.index df)) ≤ section
       ∨ section < - Z.of_nat (length (if orientation =? Qt.Horizontal
                                       then pd.columns df else pd.index df))).
Proof.
  destruct (Z.eq_dec role Qt.DisplayRole) as [->|Hrole].
  - destruct (decide (orientation = Qt.Horizontal ∨ orientation = Qt.Vertical))
      as [Haxis|Haxis].
    + rewrite headerData_display by done. simpl.
      pose proof (getitem_raise_iff
        (if orientation =? Qt.Horizontal then pd.columns df else pd.index df)
        section e) as Hiff.
      destruct (getitem _ section) as [label|e0]; simpl.
      * split; [discriminate|]. intros (He & _ & _ & Hout).
        assert (Ok label = Raise e) as Hbad by (apply Hiff; tauto).
        discriminate Hbad.
      * split.
        { intros [= ->]. destruct Hiff as [Hiff _]. specialize (Hiff eq_refl). tauto. }
        intros (He & _ & _ & Hout).
        assert (@Raise scalar e0 = Raise e) as [= ->] by (apply Hiff; tauto). done.
    + rewrite headerData_other_axis by tauto. simpl.
      split; [discriminate|]. intros (_ & _ & ? & _). contradiction.
  - rewrite headerData_other_role by done. simpl.
    split; [discriminate|]. intros (_ & ? & _). contradiction.
Qed.

(** X3. For every section within the counts the adapter reports,
    [headerData] under the display role returns the [str] of the name of
    that column (horizontal) or of the label of that row (vertical). *)
Theorem headerData_reads_label df m (section nr nc : Z) :
  PandasModel__init__ (Some (ObjFrame df)) = Ok m →
  rowCount m = (Ok nr, m) → columnCount m = (Ok nc, m) →
  (0 ≤ section < nc →
   ∃ name, pd.columns df !! Z.to_nat section = Some name
     ∧ headerData section Qt.Horizontal Qt.DisplayRole m = (Ok (Some (str name)), m))
  ∧ (0 ≤ section < nr →
     ∃ label, pd.index df !! Z.to_nat section = Some label
       ∧ headerData section Qt.Vertical Qt.DisplayRole m = (Ok (Some (str label)), m)).
Proof.
  intros [= <-] Hnr Hnc.
  rewrite rowCount_frame in Hnr. rewrite columnCount_frame in Hnc.
  injection Hnr as <-. injection Hnc as <-. simpl.
  split; intros Hsec.
  - destruct (getitem_nonneg (pd.columns df) section Hsec) as (name & Hname & Hget).
    exists name. split; [done|]. rewrite headerData_display by auto.
    simpl. by rewrite Hget.
  - destruct (getitem_nonneg (pd.index df) section Hsec) as (label & Hlabel & Hget).
    exists label. split; [done|]. rewrite headerData_display by auto.
    simpl. by rewrite Hget.
Qed.

(** X4. Asked through the index the model itself hands out for a row and
    a column that are C ints, [data] never raises on an adapter over a
    frame whose counts Qt can hold, whatever the role: it answers with a
    text exactly when the pair is within the frame and the role is the
    display role, and the text is then the [str] of the cell.  A row or a
    column too wide for a C int stops at [index], which raises
    [OverflowError]. *)
Theorem data_through_index df (r c role : Z) :
  Qt.is_int (pd.shape df).1 = true → Qt.is_int (pd.shape df).2 = true →
  (Qt.is_int r = true → Qt.is_int c = true →
   ∃ answer,
     py_bind (index r c) (λ i, data i role) {| _df := ObjFrame df |}
     = (Ok answer, {| _df := ObjFrame df |})
     ∧ (is_Some answer
        ↔ 0 ≤ r < (pd.shape df).1 ∧ 0 ≤ c < (pd.shape df).2 ∧ role = Qt.DisplayRole)
     ∧ (∀ text, answer = Some text → ∃ v, pd.iloc df r c = Ok v ∧ text = str v))
  ∧ (Qt.is_int r = false ∨ Qt.is_int c = false →
     py_bind (index r c) (λ i, data i role) {| _df := ObjFrame df |}
     = (Raise OverflowError, {| _df := ObjFrame df |})).
Proof.
  intros Hrows Hcols. split.
  - intros Hr Hc. unfold py_bind at 1. rewrite index_frame by done.
    rewrite Hr, Hc. cbn [andb].
    destruct (Z.leb_spec 0 r), (Z.ltb_spec r (pd.shape df).1),
      (Z.leb_spec 0 c), (Z.ltb_spec c (pd.shape df).2); cbn [andb];
      try (exists None; rewrite data_invalid by done;
           split_and!; [done| |done]; split;
           [by intros [? ?]|intros (? & ? & _); lia]).
    destruct (Z.eq_dec role Qt.DisplayRole) as [->|Hrole].
    + destruct (iloc_in_range df r c) as (row & v & _ & _ & Hiloc); [lia..|].
      exists (Some (str v)).
      rewrite data_display by (apply isValid_createIndex; lia).
      simpl. rewrite Hiloc. simpl. split; [done|]. split.
      * split; [intros _; simpl in *; lia|eauto].
      * intros text [= <-]. eauto.
    + exists None. rewrite data_other_role by done.
      split_and!; [done| |done]. split; [by intros [? ?]|tauto].
  - intros Hwide. unfold py_bind. rewrite index_frame by done.
    by destruct Hwide as [-> | ->]; [|rewrite andb_false_r].
Qed.

(** X5. An adapter built over a plain [dict] fails late and only where it
    touches the frame: [rowCount] and [columnCount] raise
    [AttributeError]; [data] raises it exactly on a valid index under the
    display role, [headerData] exactly on a recognized axis under the
    display role, and both answer [None] otherwise. *)
Theorem queries_without_a_frame (items : list (scalar * list scalar))
    i (section orientation role : Z) :
  rowCount {| _df := ObjDict items |} = (Raise AttributeError, {| _df := ObjDict items |})
  ∧ columnCount {| _df := ObjDict items |}
    = (Raise AttributeError, {| _df := ObjDict items |})
  ∧ data i role {| _df := ObjDict items |}
    = (if Qt.isValid i && (role =? Qt.DisplayRole)
       then Raise AttributeError else Ok None, {| _df := ObjDict items |})
  ∧ headerData section orientation role {| _df := ObjDict items |}
    = (if (role =? Qt.DisplayRole)
          && ((orientation =? Qt.Horizontal) || (orientation =? Qt.Vertical))
       then Raise AttributeError else Ok None, {| _df := ObjDict items |}).
Proof.
  split_and!; [done..| |].
  - unfold data. by destruct (Qt.isValid i), (role =? Qt.DisplayRole).
  - unfold headerData.
    by destruct (role =? Qt.DisplayRole), (orientation =? Qt.Horizontal),
      (orientation =? Qt.Vertical).
Qed.

End AdapterErrors.

(** ** The log, and updates one after another *)

Section Session.
Context `{PandasStats}.
Implicit Types (app : DataApp) (names messages : list string).

Lemma for_each_log messages app :
  for_each log messages app
  = (Ok tt, {| data_tables := data_tables app; stat_model := stat_model app;
               stat_table := stat_table app;
               log_widget := (λ lines, lines ++ messages) <$> log_widget app |}).
Proof.
  revert app. induction messages as [|message rest IH]; intros app.
  - destruct app as [t sm st [lines|]]; simpl; unfold py_ret; [|done].
    by rewrite app_nil_r.
  - simpl. unfold py_bind. rewrite log_eq, IH. simpl.
    destruct (log_widget app) as [lines|]; simpl; [|done].
    by rewrite <- app_assoc.
Qed.

(** X7. Once a pane is attached with [set_log_widget], the messages
    logged afterwards are added to what it held, all of them and in the
    order logged; after [LogMixin.__init__], or when [None] is attached,
    they are dropped.  Logging never raises and touches nothing but the
    pane. *)
Theorem log_keeps_order (widget : option (list string)) messages app :
  py_bind (set_log_widget widget) (λ _, for_each log messages) app
  = (Ok tt, {| data_tables := data_tables app; stat_model := stat_model app;
               stat_table := stat_table app;
               log_widget := (λ lines, lines ++ messages) <$> widget |})
  ∧ py_bind LogMixin__init__ (λ _, for_each log messages) app
    = (Ok tt, {| data_tables := data_tables app; stat_model := stat_model app;
                 stat_table := stat_table app; log_widget := None |}).
Proof.
  split; unfold py_bind, set_log_widget, LogMixin__init__, py_assign;
    by rewrite for_each_log.
Qed.

(** X8. While no pane is attached a method wrapped by [log_action]
    behaves exactly as the method itself, and nothing is recorded.  With a
    pane attached, the line "Действие: " followed by the method's name is
    added before the method runs, so it is there whether the method then
    returns or raises. *)
Theorem log_action_effect {A} (name : string) (func : Py DataApp A) app :
  (log_widget app = None → log_action name func app = func app)
  ∧ (∀ lines, log_widget app = Some lines →
     log_action name func app
     = func {| data_tables := data_tables app; stat_model := stat_model app;
               stat_table := stat_table app;
               log_widget := Some (lines ++ ["Действие: " +:+ name]) |}).
Proof.
  split.
  - intros Hnone. unfold log_action, py_bind. rewrite log_eq, Hnone. simpl.
    destruct app as [t sm st w]. simpl in Hnone. by subst w.
  - intros lines Hsome. unfold log_action, py_bind. by rewrite log_eq, Hsome.
Qed.

(** X9. [update_stat] raises exactly when the chosen table is present and
    pandas cannot describe its numeric part, and it raises that very
    exception; a name that is missing never makes it raise.  When it
    raises, the action has been logged and the tables, the adapter and the
    view are as they were. *)
Theorem update_stat_raises_exactly app (table_name : string) (e : PyExc) :
  ((update_stat table_name app).1 = Raise e
   ↔ ∃ df, data_tables app !! table_name = Some df
        ∧ describe (select_dtypes_number df) = Raise e)
  ∧ ((update_stat table_name app).1 = Raise e →
     (update_stat table_name app).2
     = {| data_tables := data_tables app; stat_model := stat_model app;
          stat_table := stat_table app;
          log_widget := (λ lines, lines ++ ["Действие: update_stat"])
                        <$> log_widget app |}).
Proof.
  rewrite update_stat_eq, get_statistics_eq. simpl.
  destruct (data_tables app !! table_name) as [df|]; simpl.
  - destruct (describe (select_dtypes_number df)) as [desc|e0] eqn:Hdesc; simpl.
    + split; [|discriminate]. split; [discriminate|].
      intros (df' & [= <-] & Hraise). congruence.
    + split; [|done]. split.
      * intros [= ->]. eauto.
      * intros (df' & [= <-] & Hraise). congruence.
  - split; [|discriminate]. split; [discriminate|]. by intros (df' & ? & _).
Qed.

(** X10. The adapter that [update_stat] installs depends on the tables and
    on the chosen name only, not on what was shown before: after any
    earlier [update_stat], a further one ends the same way, and when it
    ends normally it leaves the same adapter and the same view. *)
Theorem update_stat_last_wins app (earlier table_name : string) :
  (update_stat table_name (update_stat earlier app).2).1
  = (update_stat table_name app).1
  ∧ ((update_stat table_name app).1 = Ok tt →
     stat_model (update_stat table_name (update_stat earlier app).2).2
     = stat_model (update_stat table_name app).2
     ∧ stat_table (update_stat table_name (update_stat earlier app).2).2
       = stat_table (update_stat table_name app).2).
Proof.
  assert (data_tables (update_stat earlier app).2 = data_tables app) as Htables.
  { rewrite update_stat_eq. by destruct (get_statistics earlier app).1. }
  rewrite (update_stat_eq (update_stat earlier app).2 table_name),
    (update_stat_eq app table_name).
  rewrite !get_statistics_eq. cbn [fst snd]. rewrite Htables.
  destruct (match data_tables app !! table_name with
            | Some df => _ | None => _ end) as [df_stat|e]; simpl.
  - done.
  - split; [done|discriminate].
Qed.

Lemma calls_begun_tables names app1 app2 :
  data_tables app1 = data_tables app2 →
  calls_begun names app1 = calls_begun names app2.
Proof.
  intros Htables. induction names as [|name rest IH]; [done|]. simpl.
  rewrite (get_statistics_eq app1), (get_statistics_eq app2), Htables, IH. done.
Qed.

(** X11. Through any run of [update_stat] calls, made one after another
    up to the first that raises, the pane, if one is attached, gains
    exactly one line "Действие: update_stat" per call begun, the raising
    call included; without a pane nothing is recorded.  The run ends
    normally exactly when the statistics of every name can be computed,
    and every call has then been begun.  The tables stay as they were, and
    a view that showed the current adapter still shows the current
    adapter. *)
Theorem update_stat_sequence names app :
  log_widget (for_each update_stat names app).2
  = (λ lines, lines ++ replicate (calls_begun names app) "Действие: update_stat")
    <$> log_widget app
  ∧ ((for_each update_stat names app).1 = Ok tt
     ↔ Forall (λ name, ∃ df_stat, (get_statistics name app).1 = Ok df_stat) names)
  ∧ ((for_each update_stat names app).1 = Ok tt →
     calls_begun names app = length names)
  ∧ data_tables (for_each update_stat names app).2 = data_tables app
  ∧ (view_model (stat_table app) = Some (stat_model app) →
     view_model (stat_table (for_each update_stat names app).2)
     = Some (stat_model (for_each update_stat names app).2)).
Proof.
  revert app. induction names as [|name rest IH]; intros app.
  - simpl. split_and!; [|done..].
    destruct (log_widget app) as [lines|]; simpl; [|done]. by rewrite app_nil_r.
  - simpl. unfold py_bind. rewrite update_stat_eq.
    destruct (get_statistics name app).1 as [df_stat|e] eqn:Hstat; simpl.
    + match goal with
      | |- context [for_each update_stat rest ?s] =>
          destruct (IH s) as (Hlog & Hend & Hall & Htables & Hview);
          assert (∀ n, (get_statistics n s).1 = (get_statistics n app).1) as Hsame
            by (intros n; by rewrite !get_statistics_eq);
          rewrite (calls_begun_tables rest s app eq_refl) in Hlog, Hall
      end.
      simpl in *. split_and!.
      * rewrite Hlog. destruct (log_widget app) as [lines|]; simpl; [|done].
        by rewrite <- app_assoc.
      * rewrite Hend, Forall_cons. setoid_rewrite Hsame. split; [|tauto].
        intros Hrest. split; [eauto|done].
      * intros Hok. by rewrite (Hall Hok).
      * done.
      * intros _. by apply Hview.
    + split_and!; [done| |discriminate|done|done].
      split; [discriminate|]. rewrite Forall_cons. intros [[df_stat Hok] _].
      congruence.
Qed.

End Session.

(** ** The further properties, on the samples *)

Lemma headerData_reads_label_witness :
  (0 ≤ 1 < 2 →
   ∃ name, [SStr "a"; SStr "b"] !! Z.to_nat 1 = Some name
     ∧ @headerData repr_special 1 Qt.Horizontal Qt.DisplayRole model_ab
       = (Ok (Some (@str repr_special name)), model_ab))
  ∧ (0 ≤ 1 < 2 →
     ∃ label, [SInt 0; SInt 1] !! Z.to_nat 1 = Some label
       ∧ @headerData repr_special 1 Qt.Vertical Qt.DisplayRole model_ab
         = (Ok (Some (@str repr_special label)), model_ab)).
Proof.
  apply (@headerData_reads_label repr_special frame_ab model_ab 1 2 2);
    reflexivity.
Defined.

Lemma data_through_index_witness :
  ∃ answer,
    py_bind (index 0 1) (λ i, @data repr_special i Qt.DisplayRole) model_ab
    = (Ok answer, model_ab)
    ∧ (is_Some answer
       ↔ 0 ≤ 0 < (pd.shape frame_ab).1 ∧ 0 ≤ 1 < (pd.shape frame_ab).2
         ∧ Qt.DisplayRole = Qt.DisplayRole)
    ∧ (∀ text, answer = Some text →
       ∃ v, pd.iloc frame_ab 0 1 = Ok v ∧ text = @str repr_special v).
Proof.
  apply (@data_through_index repr_special frame_ab 0 1 Qt.DisplayRole);
    reflexivity.
Defined.

Lemma log_action_effect_witness :
  @log_action unit "update_stat" (py_ret tt) app_unlogged = (Ok tt, app_unlogged).
Proof.
  apply (@log_action_effect unit "update_stat" (py_ret tt) app_unlogged).
  reflexivity.
Defined.

(** A table that cannot be described: the update raises, is logged, and
    leaves the adapter; a missing name after it is answered. *)
Example app_blank_updates :
  @update_stat stats_plain "blank" app_blank
  = (Raise ValueError,
     {| data_tables := {[ "blank" := pd.empty ]}; stat_model := model_ab;
        stat_table := {| view_model := Some model_ab |};
        log_widget := Some ["earlier"; "Действие: update_stat"] |})
  ∧ log_widget (@for_each _ _ (@update_stat stats_plain) ["zz"; "blank"; "zz"] app_blank).2
    = Some ["earlier"; "Действие: update_stat"; "Действие: update_stat"]
  ∧ stat_model (@for_each _ _ (@update_stat stats_plain) ["zz"; "blank"; "zz"] app_blank).2
    = {| _df := ObjFrame not_found_frame |}.
Proof. by vm_compute. Qed.

(** An integer too wide for a C int stops at [index]; and an adapter over
    a [dict] cannot be asked for an index at all, its [rowCount] failing
    inside the call from C++. *)
Example index_beyond_c_int :
  index (2 ^ 31) 0 model_ab = (Raise OverflowError, model_ab)
  ∧ index 0 (- 2 ^ 31 - 1) model_ab = (Raise OverflowError, model_ab)
  ∧ index 0 0 {| _df := ragged_columns |} = (Raise Abort, {| _df := ragged_columns |})
  ∧ index (-1) 0 {| _df := ragged_columns |}
    = (Ok Qt.no_index, {| _df := ragged_columns |}).
Proof. split_and!; by vm_compute. Qed.
